(** * The image proxy of [main.py]: [GET /api/image?src=<url>]

    A shallow embedding of the handler [proxy_image] and of the few library
    objects it touches (Python strings, [requests], [fastapi]), followed by
    the properties of the handler. *)

From stdpp Require Import base strings pretty gmap list.
From Stdlib Require Import ZArith Ascii String.
From Stdlib Require Import Init.Byte.

Local Open Scope Z_scope.
Local Open Scope string_scope.

(** ** Python string primitives used by the handler *)
Module Str.

(** [s.startswith(p)] *)
Fixpoint startswith (s p : string) {struct p} : bool :=
  match p, s with
  | EmptyString, _ => true
  | String _ _, EmptyString => false
  | String b p', String a s' => if Ascii.eqb a b then startswith s' p' else false
  end.

(** [sub in s] *)
Fixpoint contains (s sub : string) : bool :=
  startswith s sub ||
  match s with
  | EmptyString => false
  | String _ s' => contains s' sub
  end.

(** [c.lower()] on one ASCII character: only [A-Z] move. *)
Definition lower_ascii (c : ascii) : ascii :=
  let n := N_of_ascii c in
  if ((65 <=? n) && (n <=? 90))%N then ascii_of_N (n + 32) else c.

(** [s.lower()], for the ASCII strings that header names are. *)
Fixpoint lower (s : string) : string :=
  match s with
  | EmptyString => EmptyString
  | String c s' => String (lower_ascii c) (lower s')
  end.

(** [str(n)] for a Python [int]: decimal digits, a leading [-] when
    negative. *)
Definition of_int (n : Z) : string := pretty n.

End Str.

(** ** The part of [requests] the handler uses *)
Module Requests.

(** [requests.structures.CaseInsensitiveDict]: the store maps the
    lower-cased key to the pair of the key as it was set and its value. *)
Record CaseInsensitiveDict : Type := mkCID {
  store : gmap string (string * string)
}.

Definition cid_empty : CaseInsensitiveDict := mkCID ∅.

(** [d[key] = value] *)
Definition cid_setitem (d : CaseInsensitiveDict) (key value : string)
  : CaseInsensitiveDict :=
  mkCID (<[Str.lower key := (key, value)]> (store d)).

(** [d[key]], [None] standing for [KeyError] *)
Definition cid_getitem (d : CaseInsensitiveDict) (key : string) : option string :=
  snd <$> store d !! Str.lower key.

(** [d.get(key, default)] *)
Definition cid_get (d : CaseInsensitiveDict) (key default : string) : string :=
  match cid_getitem d key with
  | Some v => v
  | None => default
  end.

(** [requests.Response], restricted to what is read from it. *)
Record Response : Type := mkResponse {
  status_code : Z;
  headers : CaseInsensitiveDict;
  content : list byte
}.

(** The arguments of one [requests.get(url, headers=..., timeout=...)]. *)
Record Call : Type := mkCall {
  url : string;
  call_headers : gmap string string;
  timeout : Z
}.

(** How one call ends: a response object, an exception that is a
    [requests.Timeout] (this covers its subclasses [ConnectTimeout] and
    [ReadTimeout]), or any other [Exception]; each exception carries its
    [str(e)]. *)
Inductive fetched : Type :=
| Responded (r : Response)
| TimedOut (str_e : string)
| Failed (str_e : string).

End Requests.

(** ** The part of [fastapi] the handler uses *)
Module Fastapi.

(** [fastapi.Response(content=, media_type=, headers=)]; [status_code]
    keeps its default. *)
Record Response : Type := mkResponse {
  content : list byte;
  status_code : Z;
  media_type : string;
  headers : gmap string string
}.

Definition Response_init (content : list byte) (media_type : string)
    (headers : gmap string string) : Response :=
  mkResponse content 200 media_type headers.

End Fastapi.

(** ** Exceptions and the handler monad *)

(** The exception classes the handler's [except] clauses tell apart. *)
Inductive exn : Type :=
| HTTPException (status_code : Z) (detail : string)
| Timeout (str_e : string)
| Exception (str_e : string).

(** The world outside the process: [upstream n c] is how the [n]-th outbound
    call of the process ends when it is the call [c]; [calls] records the
    outbound calls made so far, oldest first. *)
Record World : Type := mkWorld {
  upstream : nat → Requests.Call → Requests.fetched;
  calls : list Requests.Call
}.

(** A computation returns a value or raises, and may touch the world. *)
Definition M (A : Type) : Type := World → (A + exn) * World.

Definition ret {A} (a : A) : M A := λ w, (inl a, w).

Definition raise {A} (e : exn) : M A := λ w, (inr e, w).

Definition bind {A B} (m : M A) (k : A → M B) : M B :=
  λ w, match m w with
       | (inl a, w') => k a w'
       | (inr e, w') => (inr e, w')
       end.

(** [try: m  except ...: h e] *)
Definition try_except {A} (m : M A) (h : exn → M A) : M A :=
  λ w, match m w with
       | (inl a, w') => (inl a, w')
       | (inr e, w') => h e w'
       end.

(** [if c: raise e] *)
Definition raise_if (c : bool) (e : exn) : M unit :=
  if c then raise e else ret tt.

#[global] Instance M_ret : MRet M := @ret.
#[global] Instance M_bind : MBind M := λ A B k m, bind m k.

(** The world after the outbound call [c] has been made. *)
Definition log_call (c : Requests.Call) (w : World) : World :=
  mkWorld (upstream w) (calls w ++ [c]).

(** [requests.get(url, headers=headers, timeout=timeout)] *)
Definition requests_get (url : string) (headers : gmap string string)
    (timeout : Z) : M Requests.Response :=
  λ w,
    let c := Requests.mkCall url headers timeout in
    let w' := log_call c w in
    match upstream w (List.length (calls w)) c with
    | Requests.Responded r => (inl r, w')
    | Requests.TimedOut s => (inr (Timeout s), w')
    | Requests.Failed s => (inr (Exception s), w')
    end.

(** ** The handler *)

(** The [headers] dict of lines 93-98. *)
Definition request_headers : gmap string string :=
  <["Origin" := ""]>
  (<["Referer" := ""]>
  (<["Accept" := "image/avif,image/webp,image/apng,image/*,*/*;q=0.8"]>
  (<["User-Agent" := "Mozilla/5.0 (Windows NT 10.0; Win64; x64) AppleWebKit/537.36 (KHTML, like Gecko) Chrome/120.0 Safari/537.36"]>
   ∅))).

(** The [cache_headers] dict of lines 106-110. *)
Definition cache_headers (content_type : string) : gmap string string :=
  <["X-Image-Proxy" := "1"]>
  (<["Content-Type" := content_type]>
  (<["Cache-Control" := "public, max-age=86400"]> ∅)).

(** The condition of line 89, before its [not]. *)
Definition scheme_ok (src : string) : bool :=
  Str.startswith src "https://" || Str.startswith src "http://".

(** The body of the [try] block, lines 88-111. *)
Definition proxy_image_body (src : string) : M Fastapi.Response :=
  raise_if (negb (scheme_ok src)) (HTTPException 400 "Invalid URL");;
  resp ← requests_get src request_headers 10;
  raise_if (negb (Z.eqb (Requests.status_code resp) 200))
    (HTTPException (Requests.status_code resp)
       ("Upstream failed: " +:+ Str.of_int (Requests.status_code resp)));;
  let content_type :=
    Requests.cid_get (Requests.headers resp) "Content-Type" "image/jpeg" in
  mret (Fastapi.Response_init (Requests.content resp) content_type
          (cache_headers content_type)).

(** The [except] clauses of lines 112-117, tried in order. *)
Definition proxy_image_except (e : exn) : M Fastapi.Response :=
  match e with
  | HTTPException _ _ => raise e
  | Timeout _ => raise (HTTPException 504 "Image fetch timed out")
  | Exception s => raise (HTTPException 500 ("Proxy error: " +:+ s))
  end.

(** [proxy_image], lines 82-117. *)
Definition proxy_image (src : string) : M Fastapi.Response :=
  try_except (proxy_image_body src) proxy_image_except.

(** The one outbound call the handler makes for [src]. *)
Definition outbound (src : string) : Requests.Call :=
  Requests.mkCall src request_headers 10.

(** ** Sample worlds *)

(** An upstream that ends every call the same way; no call made yet. *)
Definition always (f : Requests.fetched) : World := mkWorld (λ _ _, f) [].

Definition png_bytes : list byte := [x89; x50; x4e; x47; x0d; x0a; x1a; x0a].

Definition png_response : Requests.Response :=
  Requests.mkResponse 200
    (Requests.cid_setitem Requests.cid_empty "content-type" "image/png")
    png_bytes.

Definition bare_response : Requests.Response :=
  Requests.mkResponse 200 Requests.cid_empty png_bytes.

Definition not_found_response : Requests.Response :=
  Requests.mkResponse 404
    (Requests.cid_setitem Requests.cid_empty "Content-Type" "text/html") [].

(** ** The rest of [main.py]: documents, the store and the process *)

(** [s[:n]] on a [str]. *)
Fixpoint str_prefix (n : nat) (s : string) : string :=
  match n, s with
  | O, _ => EmptyString
  | S _, EmptyString => EmptyString
  | S n', String c s' => String c (str_prefix n' s')
  end.

(** [bool(s)] for a [str]: the empty string is falsy. *)
Definition str_truthy (s : string) : bool :=
  match s with
  | EmptyString => false
  | String _ _ => true
  end.

Module Doc.

(** A [datetime], seen through the two renderings the code can ask of it:
    [str(v)] and [v.isoformat()]. *)
Record datetime : Type := mkDatetime {
  dt_str : string;
  dt_isoformat : string
}.

(** The values a stored document or a JSON answer holds; [VOther] is any
    other object without an [isoformat] attribute (a float, a list, a nested
    document), given by its [str()]. *)
Inductive value : Type :=
| VNone
| VBool (b : bool)
| VInt (n : Z)
| VStr (s : string)
| VObjectId (hex : string)
| VDatetime (d : datetime)
| VOther (str_v : string).

(** [str(v)] *)
Definition str (v : value) : string :=
  match v with
  | VNone => "None"
  | VBool true => "True"
  | VBool false => "False"
  | VInt n => Str.of_int n
  | VStr s => s
  | VObjectId hex => hex
  | VDatetime d => dt_str d
  | VOther str_v => str_v
  end.

(** [v.isoformat()], [None] standing for [AttributeError] *)
Definition isoformat (v : value) : option string :=
  match v with
  | VDatetime d => Some (dt_isoformat d)
  | _ => None
  end.

(** [hasattr(v, "isoformat")] *)
Definition has_isoformat (v : value) : bool :=
  match isoformat v with
  | Some _ => true
  | None => false
  end.

End Doc.

(** The module-level [db] handle when it is not [None]: its [name]
    attribute, if it has one, and how [list_collection_names()] ends: the
    names, or an [Exception] given by its [str(e)]. *)
Record Database : Type := mkDatabase {
  db_name : option string;
  list_collection_names : list string + string
}.

(** One call into the [database] module. *)
Inductive store_op : Type :=
| CreateDocument (collection : string) (data : gmap string Doc.value)
| GetDocuments (collection : string) (filter : gmap string Doc.value) (limit : Z).

(** What the contact and diagnostics handlers see of the process and its
    surroundings: the [db] handle, how the [n]-th call into the [database]
    module ends, the clock, the environment variables, and the calls made
    so far, oldest first. *)
Record Backend : Type := mkBackend {
  db : option Database;
  on_create : nat → string → gmap string Doc.value → string + exn;
  on_get : nat → string → gmap string Doc.value → Z → list (gmap string Doc.value) + exn;
  utc_now : Doc.datetime;
  getenv : string → option string;
  store_ops : list store_op
}.

(** Computations over a state [S] that return a value or raise an [E]; the
    state reached when the exception was raised is kept. *)
Definition SE (S E A : Type) : Type := S → (A + E) * S.

#[global] Instance SE_ret {S E} : MRet (SE S E) := λ A a w, (inl a, w).
#[global] Instance SE_bind {S E} : MBind (SE S E) := λ A B' k m w,
  match m w with
  | (inl a, w') => k a w'
  | (inr e, w') => (inr e, w')
  end.

Definition se_raise {S E A} (e : E) : SE S E A := λ w, (inr e, w).

Definition se_raise_if {S E} (c : bool) (e : E) : SE S E unit :=
  if c then se_raise e else mret tt.

Definition se_try_except {S E A} (m : SE S E A) (h : E → SE S E A) : SE S E A :=
  λ w, match m w with
       | (inl a, w') => (inl a, w')
       | (inr e, w') => h e w'
       end.

(** [x is None] *)
Definition is_none {A} (x : option A) : bool :=
  match x with
  | None => true
  | Some _ => false
  end.

(** The contact handlers run over the backend and raise an [exn]. *)
Definition B (A : Type) : Type := SE Backend exn A.

(** Reading the global [db]. *)
Definition get_db : B (option Database) := λ w, (inl (db w), w).

(** [datetime.now(timezone.utc)] *)
Definition datetime_now : B Doc.datetime := λ w, (inl (utc_now w), w).

(** [os.getenv(name)] *)
Definition os_getenv (name : string) : B (option string) :=
  λ w, (inl (getenv w name), w).

Definition log_op (o : store_op) (w : Backend) : Backend :=
  mkBackend (db w) (on_create w) (on_get w) (utc_now w) (getenv w)
    (store_ops w ++ [o]).

(** [create_document(collection, data)] *)
Definition create_document (collection : string) (data : gmap string Doc.value)
  : B string :=
  λ w, (on_create w (List.length (store_ops w)) collection data,
        log_op (CreateDocument collection data) w).

(** [get_documents(collection, filter, limit)] *)
Definition get_documents (collection : string) (filter : gmap string Doc.value)
    (limit : Z) : B (list (gmap string Doc.value)) :=
  λ w, (on_get w (List.length (store_ops w)) collection filter limit,
        log_op (GetDocuments collection filter limit) w).

(** *** The contact handlers *)

(** [ContactIn], lines 34-40, after validation. *)
Record ContactIn : Type := mkContactIn {
  name : string;
  email : string;
  subject : option string;
  phone : option string;
  message : string;
  source : string
}.

Definition opt_value (o : option string) : Doc.value :=
  match o with
  | Some s => Doc.VStr s
  | None => Doc.VNone
  end.

(** [payload.model_dump()] *)
Definition model_dump (payload : ContactIn) : gmap string Doc.value :=
  <["source" := Doc.VStr (source payload)]>
  (<["message" := Doc.VStr (message payload)]>
  (<["phone" := opt_value (phone payload)]>
  (<["subject" := opt_value (subject payload)]>
  (<["email" := Doc.VStr (email payload)]>
  (<["name" := Doc.VStr (name payload)]> ∅))))).

(** The [except] clauses shared by both contact handlers (lines 53-56 and
    75-78): [requests.Timeout] is an [Exception] like any other here. *)
Definition contact_except {A} (e : exn) : B A :=
  match e with
  | HTTPException _ _ => se_raise e
  | Timeout s => se_raise (HTTPException 500 s)
  | Exception s => se_raise (HTTPException 500 s)
  end.

(** [create_contact_message], lines 44-56. *)
Definition create_contact_message (payload : ContactIn) : B (gmap string Doc.value) :=
  se_try_except
    (d ← get_db;
     se_raise_if (is_none d) (HTTPException 500 "Database not configured");;
     let data := model_dump payload in
     now ← datetime_now;
     let data := <["received_at" := Doc.VDatetime now]> data in
     inserted_id ← create_document "contactmessage" data;
     mret (<["id" := Doc.VStr inserted_id]> (<["success" := Doc.VBool true]> ∅)))
    contact_except.

(** [serialize], lines 66-73. *)
Definition serialize (doc : gmap string Doc.value) : gmap string Doc.value :=
  let d := doc in
  let d := match d !! "_id" with
           | Some v => <["_id" := Doc.VStr (Doc.str v)]> d
           | None => d
           end in
  (λ v, match Doc.isoformat v with
        | Some iso => Doc.VStr iso
        | None => v
        end) <$> d.

(** The answer of [list_contact_messages]: [{"items": [...]}]. *)
Record Items : Type := mkItems {
  items : list (gmap string Doc.value)
}.

(** [list_contact_messages], lines 60-78. *)
Definition list_contact_messages (limit : Z) : B Items :=
  se_try_except
    (d ← get_db;
     se_raise_if (is_none d) (HTTPException 500 "Database not configured");;
     docs ← get_documents "contactmessage" ∅ limit;
     mret (mkItems (serialize <$> docs)))
    contact_except.

(** *** The diagnostics handler *)

(** The values of the diagnostics answer: [None], a [str] or a list of
    [str]. String literals hold the bytes of the source's literals. *)
Inductive diag : Type :=
| DNone
| DStr (s : string)
| DList (l : list string).

(** The state of one run of [test_database]: the backend and the local
    [response] dict, which assignments update in place. *)
Record Frame : Type := mkFrame {
  backend : Backend;
  response : gmap string diag
}.

(** [response[k] = v] *)
Definition assign {E} (k : string) (v : diag) : SE Frame E unit :=
  λ f, (inl tt, mkFrame (backend f) (<[k := v]> (response f))).

Definition frame_db {E} : SE Frame E (option Database) :=
  λ f, (inl (db (backend f)), f).

Definition frame_getenv {E} (name : string) : SE Frame E (option string) :=
  λ f, (inl (getenv (backend f) name), f).

(** [d.list_collection_names()] *)
Definition call_list_collection_names (d : Database) : SE Frame string (list string) :=
  λ f, (list_collection_names d, f).

(** [bool(os.getenv(...))]: unset and empty are both falsy. *)
Definition env_truthy (v : option string) : bool :=
  match v with
  | Some s => str_truthy s
  | None => false
  end.

(** The dict literal of lines 123-130. *)
Definition initial_response : gmap string diag :=
  <["collections" := DList []]>
  (<["connection_status" := DStr "Not Connected"]>
  (<["database_name" := DNone]>
  (<["database_url" := DNone]>
  (<["database" := DStr "❌ Not Available"]>
  (<["backend" := DStr "✅ Running"]> ∅))))).

(** Lines 132-153; an exception is carried as its [str(e)]. *)
Definition test_database_frame : SE Frame string unit :=
  se_try_except
    (d ← frame_db;
     match d with
     | Some dbh =>
         assign "database" (DStr "✅ Available");;
         assign "database_url" (DStr "✅ Configured");;
         assign "database_name"
           (DStr (match db_name dbh with
                  | Some n => n
                  | None => "✅ Connected"
                  end));;
         assign "connection_status" (DStr "Connected");;
         se_try_except
           (collections ← call_list_collection_names dbh;
            assign "collections" (DList (take 10 collections));;
            assign "database" (DStr "✅ Connected & Working"))
           (λ e, assign "database"
                   (DStr ("⚠️  Connected but Error: " +:+ str_prefix 50 e)))
     | None => assign "database" (DStr "⚠️  Available but not initialized")
     end)
    (λ e, assign "database" (DStr ("❌ Error: " +:+ str_prefix 50 e)));;
  url ← frame_getenv "DATABASE_URL";
  assign "database_url" (DStr (if env_truthy url then "✅ Set" else "❌ Not Set"));;
  nm ← frame_getenv "DATABASE_NAME";
  assign "database_name" (DStr (if env_truthy nm then "✅ Set" else "❌ Not Set")).

(** [test_database], lines 121-155: run the body on a fresh [response] and
    return it. *)
Definition test_database (w : Backend) : (gmap string diag + string) * Backend :=
  match test_database_frame (mkFrame w initial_response) with
  | (inl _, f) => (inl (response f), backend f)
  | (inr e, f) => (inr e, backend f)
  end.

(** *** Sample backends *)

Definition quiet_backend (d : option Database) : Backend :=
  mkBackend d (λ _ _ _, inl "65f0c0ffee0123456789abcd") (λ _ _ _ _, inl [])
    (Doc.mkDatetime "2024-03-01 12:00:00+00:00" "2024-03-01T12:00:00+00:00")
    (λ _, None) [].

Definition sample_db : Database :=
  mkDatabase (Some "portfolio") (inl ["contactmessage"; "users"]).

Definition sample_contact : ContactIn :=
  mkContactIn "Ada" "ada@example.com" None (Some "555-0100") "Hello there" "portfolio".

(** An environment with [DATABASE_URL] set and [DATABASE_NAME] set to the
    empty string. *)
Definition sample_env (name : string) : option string :=
  if String.eqb name "DATABASE_URL" then Some "mongodb://localhost:27017"
  else if String.eqb name "DATABASE_NAME" then Some ""
  else None.

(** A handle whose listing raises, with a message of 64 characters. *)
Definition failing_db : Database :=
  mkDatabase (Some "portfolio")
    (inr "localhost:27017: [Errno 111] Connection refused, Timeout: 30.0s.").

(** A handle with twelve collections. *)
Definition crowded_db : Database :=
  mkDatabase None
    (inl ["c01"; "c02"; "c03"; "c04"; "c05"; "c06"; "c07"; "c08"; "c09"; "c10";
          "c11"; "c12"]).

Definition diag_backend (d : option Database) : Backend :=
  mkBackend d (λ _ _ _, inl "65f0c0ffee0123456789abcd") (λ _ _ _ _, inl [])
    (Doc.mkDatetime "2024-03-01 12:00:00+00:00" "2024-03-01T12:00:00+00:00")
    sample_env [].

(** ** Properties of the string primitives *)

Lemma startswith_app (p t : string) : Str.startswith (p +:+ t) p = true.
Proof.
  induction p as [|a p IH]; simpl; [done|].
  by rewrite Ascii.eqb_refl.
Qed.

Lemma startswith_spec (s p : string) :
  Str.startswith s p = true ↔ ∃ t, s = p +:+ t.
Proof.
  split.
  - revert s. induction p as [|b p IH]; intros s H; simpl in *.
    + by exists s.
    + destruct s as [|a s]; [done|].
      destruct (Ascii.eqb a b) eqn:E; [|done].
      apply Ascii.eqb_eq in E as ->.
      destruct (IH s H) as [t ->]. by exists t.
  - intros [t ->]. apply startswith_app.
Qed.

Lemma startswith_refl (s : string) : Str.startswith s s = true.
Proof. induction s as [|a s IH]; simpl; [done|]. by rewrite Ascii.eqb_refl. Qed.

Lemma contains_refl (s : string) : Str.contains s s = true.
Proof. destruct s; simpl; [done|]. by rewrite Ascii.eqb_refl, startswith_refl. Qed.

Lemma contains_suffix (p s : string) : Str.contains (p +:+ s) s = true.
Proof.
  induction p as [|a p IH]; simpl.
  - apply contains_refl.
  - rewrite IH. apply orb_true_r.
Qed.

(** ** Stepping the handler *)

Lemma body_rejects (src : string) (w : World) :
  scheme_ok src = false →
  proxy_image_body src w = (inr (HTTPException 400 "Invalid URL"), w).
Proof.
  intros H. unfold proxy_image_body, mbind, M_bind, bind. by rewrite H.
Qed.

Lemma body_fetches (src : string) (w : World) :
  scheme_ok src = true →
  proxy_image_body src w =
    (match upstream w (List.length (calls w)) (outbound src) with
     | Requests.Responded r =>
         if Z.eqb (Requests.status_code r) 200 then
           let content_type :=
             Requests.cid_get (Requests.headers r) "Content-Type" "image/jpeg" in
           inl (Fastapi.Response_init (Requests.content r) content_type
                  (cache_headers content_type))
         else
           inr (HTTPException (Requests.status_code r)
                  ("Upstream failed: " +:+ Str.of_int (Requests.status_code r)))
     | Requests.TimedOut s => inr (Timeout s)
     | Requests.Failed s => inr (Exception s)
     end,
     log_call (outbound src) w).
Proof.
  intros H.
  unfold proxy_image_body, mbind, M_bind, bind, requests_get, outbound.
  rewrite H; simpl.
  destruct (upstream w _ _) as [r|s|s]; simpl; try done.
  by destruct (Z.eqb (Requests.status_code r) 200).
Qed.

Lemma proxy_image_rejects (src : string) (w : World) :
  scheme_ok src = false →
  proxy_image src w = (inr (HTTPException 400 "Invalid URL"), w).
Proof.
  intros H. unfold proxy_image, try_except. by rewrite body_rejects.
Qed.

Lemma proxy_image_fetches (src : string) (w : World) :
  scheme_ok src = true →
  proxy_image src w =
    (match upstream w (List.length (calls w)) (outbound src) with
     | Requests.Responded r =>
         if Z.eqb (Requests.status_code r) 200 then
           let content_type :=
             Requests.cid_get (Requests.headers r) "Content-Type" "image/jpeg" in
           inl (Fastapi.Response_init (Requests.content r) content_type
                  (cache_headers content_type))
         else
           inr (HTTPException (Requests.status_code r)
                  ("Upstream failed: " +:+ Str.of_int (Requests.status_code r)))
     | Requests.TimedOut _ => inr (HTTPException 504 "Image fetch timed out")
     | Requests.Failed s => inr (HTTPException 500 ("Proxy error: " +:+ s))
     end,
     log_call (outbound src) w).
Proof.
  intros H. unfold proxy_image, try_except. rewrite body_fetches by done.
  destruct (upstream w _ _) as [r|s|s]; simpl; try done.
  by destruct (Z.eqb (Requests.status_code r) 200).
Qed.

(** Whatever the handler raises is an [HTTPException]. *)
Lemma proxy_image_raises_http_only (src : string) (w : World) (e : exn) :
  fst (proxy_image src w) = inr e → ∃ s d, e = HTTPException s d.
Proof.
  destruct (scheme_ok src) eqn:H.
  - rewrite proxy_image_fetches by done. simpl.
    destruct (upstream w _ _) as [r|s|s]; [|intros [= <-]; eauto..].
    destruct (Z.eqb (Requests.status_code r) 200); [done|].
    intros [= <-]; eauto.
  - rewrite proxy_image_rejects by done. intros [= <-]; eauto.
Qed.

(** ** The handler's contract *)

(** C1: a [src] that starts with neither ["http://"] nor ["https://"] makes
    the handler raise [HTTPException(400, "Invalid URL")], and the record of
    outbound calls is left as it was: no call is made. *)
Theorem proxy_image_invalid_url (src : string) (w : World) :
  Str.startswith src "http://" = false →
  Str.startswith src "https://" = false →
  proxy_image src w = (inr (HTTPException 400 "Invalid URL"), w)
  ∧ calls (snd (proxy_image src w)) = calls w.
Proof.
  intros Hhttp Hhttps.
  assert (scheme_ok src = false) as H by (unfold scheme_ok; by rewrite Hhttp, Hhttps).
  by rewrite proxy_image_rejects.
Qed.

Lemma proxy_image_invalid_url_witness :
  proxy_image "ftp://example.com/x.png" (always (Requests.Responded png_response))
    = (inr (HTTPException 400 "Invalid URL"), always (Requests.Responded png_response))
  ∧ calls (snd (proxy_image "ftp://example.com/x.png"
                  (always (Requests.Responded png_response)))) = [].
Proof.
  apply (proxy_image_invalid_url "ftp://example.com/x.png"
           (always (Requests.Responded png_response))); reflexivity.
Defined.

Example proxy_image_empty_src (w : World) :
  proxy_image "" w = (inr (HTTPException 400 "Invalid URL"), w).
Proof. by apply proxy_image_rejects. Qed.

Example proxy_image_relative_src (w : World) :
  proxy_image "/static/avatar.png" w = (inr (HTTPException 400 "Invalid URL"), w).
Proof. by apply proxy_image_rejects. Qed.

Example proxy_image_file_src (w : World) :
  proxy_image "file:///etc/passwd" w = (inr (HTTPException 400 "Invalid URL"), w).
Proof. by apply proxy_image_rejects. Qed.

(** C2: when the upstream answers with a status other than 200, the handler
    returns no response; it raises an [HTTPException] whose status is the
    upstream's and whose detail, ["Upstream failed: <status>"], contains the
    decimal rendering of that status. *)
Theorem proxy_image_upstream_failure (src : string) (w : World)
    (r : Requests.Response) :
  scheme_ok src = true →
  upstream w (List.length (calls w)) (outbound src) = Requests.Responded r →
  Requests.status_code r ≠ 200 →
  ∃ detail,
    fst (proxy_image src w) = inr (HTTPException (Requests.status_code r) detail)
    ∧ detail = "Upstream failed: " +:+ Str.of_int (Requests.status_code r)
    ∧ Str.contains detail (Str.of_int (Requests.status_code r)) = true.
Proof.
  intros Hok Hup Hne. eexists. rewrite proxy_image_fetches, Hup by done.
  destruct (Z.eqb_spec (Requests.status_code r) 200) as [|_]; [done|].
  split; [reflexivity|]. split; [reflexivity|]. apply contains_suffix.
Qed.

Lemma proxy_image_upstream_failure_witness :
  ∃ detail,
    fst (proxy_image "https://example.com/gone.png"
           (always (Requests.Responded not_found_response)))
      = inr (HTTPException 404 detail)
    ∧ detail = "Upstream failed: 404"
    ∧ Str.contains detail "404" = true.
Proof.
  apply (proxy_image_upstream_failure "https://example.com/gone.png"
           (always (Requests.Responded not_found_response)) not_found_response);
    [reflexivity | reflexivity | discriminate].
Defined.

(** The marker and cache entries of [cache_headers], and its content type. *)
Lemma cache_headers_lookup (ct : string) :
  cache_headers ct !! "Cache-Control" = Some "public, max-age=86400"
  ∧ cache_headers ct !! "X-Image-Proxy" = Some "1"
  ∧ cache_headers ct !! "Content-Type" = Some ct.
Proof. unfold cache_headers. repeat split; by simplify_map_eq. Qed.

(** Header lookup ignores the case in which the name was stored. *)
Lemma cid_get_setitem (d : Requests.CaseInsensitiveDict) (k k' v dflt : string) :
  Str.lower k = Str.lower k' →
  Requests.cid_get (Requests.cid_setitem d k v) k' dflt = v.
Proof.
  intros H. unfold Requests.cid_get, Requests.cid_getitem, Requests.cid_setitem.
  simpl. by rewrite H, lookup_insert_eq.
Qed.

(** C3: when the upstream answers 200, the handler returns a response whose
    body is the upstream body, and whose content type (both the media type
    and the [Content-Type] header) is the upstream's [Content-Type] header
    when there is one and ["image/jpeg"] when there is none. *)
Theorem proxy_image_success (src : string) (w : World) (r : Requests.Response) :
  scheme_ok src = true →
  upstream w (List.length (calls w)) (outbound src) = Requests.Responded r →
  Requests.status_code r = 200 →
  ∃ resp ct,
    fst (proxy_image src w) = inl resp
    ∧ Fastapi.content resp = Requests.content r
    ∧ Fastapi.media_type resp = ct
    ∧ Fastapi.headers resp !! "Content-Type" = Some ct
    ∧ match Requests.cid_getitem (Requests.headers r) "Content-Type" with
      | Some v => ct = v
      | None => ct = "image/jpeg"
      end.
Proof.
  intros Hok Hup H200. rewrite proxy_image_fetches, Hup, H200 by done. simpl.
  set (ct := Requests.cid_get (Requests.headers r) "Content-Type" "image/jpeg").
  exists (Fastapi.Response_init (Requests.content r) ct (cache_headers ct)), ct.
  split; [done|]. split; [done|]. split; [done|]. split.
  - apply cache_headers_lookup.
  - subst ct. unfold Requests.cid_get. by destruct (Requests.cid_getitem _ _).
Qed.

Lemma proxy_image_success_witness :
  ∃ resp ct,
    fst (proxy_image "https://example.com/avatar.png"
           (always (Requests.Responded png_response))) = inl resp
    ∧ Fastapi.content resp = png_bytes
    ∧ Fastapi.media_type resp = ct
    ∧ Fastapi.headers resp !! "Content-Type" = Some ct
    ∧ ct = "image/png".
Proof.
  apply (proxy_image_success "https://example.com/avatar.png"
           (always (Requests.Responded png_response)) png_response);
    reflexivity.
Defined.

Example proxy_image_default_content_type :
  fst (proxy_image "http://example.com/a" (always (Requests.Responded bare_response)))
  = inl (Fastapi.Response_init png_bytes "image/jpeg" (cache_headers "image/jpeg")).
Proof. reflexivity. Qed.

(** C4: every response the handler returns carries
    [Cache-Control: public, max-age=86400] and [X-Image-Proxy: 1]. *)
Theorem proxy_image_cache_headers (src : string) (w w' : World)
    (resp : Fastapi.Response) :
  proxy_image src w = (inl resp, w') →
  Fastapi.headers resp !! "Cache-Control" = Some "public, max-age=86400"
  ∧ Fastapi.headers resp !! "X-Image-Proxy" = Some "1".
Proof.
  destruct (scheme_ok src) eqn:Hok.
  - rewrite proxy_image_fetches by done.
    destruct (upstream w _ _) as [r|s|s]; [|done..].
    destruct (Z.eqb (Requests.status_code r) 200); [|done].
    intros [= <- _]. simpl. split; apply cache_headers_lookup.
  - by rewrite proxy_image_rejects.
Qed.

Lemma proxy_image_cache_headers_witness :
  Fastapi.headers
    (Fastapi.Response_init png_bytes "image/png" (cache_headers "image/png"))
    !! "Cache-Control" = Some "public, max-age=86400"
  ∧ Fastapi.headers
      (Fastapi.Response_init png_bytes "image/png" (cache_headers "image/png"))
      !! "X-Image-Proxy" = Some "1".
Proof.
  apply (proxy_image_cache_headers "https://example.com/avatar.png"
           (always (Requests.Responded png_response))
           (log_call (outbound "https://example.com/avatar.png")
              (always (Requests.Responded png_response)))).
  vm_compute. reflexivity.
Defined.

(** C5: when the outbound call raises [requests.Timeout], the handler raises
    [HTTPException(504, "Image fetch timed out")], which is not the status
    nor the message of the generic branch. *)
Theorem proxy_image_timeout (src : string) (w : World) (str_e : string) :
  scheme_ok src = true →
  upstream w (List.length (calls w)) (outbound src) = Requests.TimedOut str_e →
  fst (proxy_image src w) = inr (HTTPException 504 "Image fetch timed out")
  ∧ ∀ s, fst (proxy_image src w) ≠ inr (HTTPException 500 ("Proxy error: " +:+ s)).
Proof.
  intros Hok Hup. rewrite proxy_image_fetches, Hup by done. simpl.
  split; [done|]. intros s [=].
Qed.

Lemma proxy_image_timeout_witness :
  fst (proxy_image "https://slow.example.com/a.png"
         (always (Requests.TimedOut "Read timed out. (read timeout=10)")))
    = inr (HTTPException 504 "Image fetch timed out")
  ∧ ∀ s, fst (proxy_image "https://slow.example.com/a.png"
                (always (Requests.TimedOut "Read timed out. (read timeout=10)")))
           ≠ inr (HTTPException 500 ("Proxy error: " +:+ s)).
Proof.
  apply (proxy_image_timeout "https://slow.example.com/a.png"
           (always (Requests.TimedOut "Read timed out. (read timeout=10)"))
           "Read timed out. (read timeout=10)"); reflexivity.
Defined.

(** C6: when the outbound call raises any exception other than a timeout,
    the handler raises [HTTPException(500, "Proxy error: " + str(e))]; and
    whatever the input and the world, an exception that leaves the handler
    is an [HTTPException]. *)
Theorem proxy_image_proxy_error (src : string) (w : World) (str_e : string) :
  scheme_ok src = true →
  upstream w (List.length (calls w)) (outbound src) = Requests.Failed str_e →
  fst (proxy_image src w) = inr (HTTPException 500 ("Proxy error: " +:+ str_e))
  ∧ ∀ src' w' e, fst (proxy_image src' w') = inr e → ∃ s d, e = HTTPException s d.
Proof.
  intros Hok Hup. split.
  - by rewrite proxy_image_fetches, Hup.
  - apply proxy_image_raises_http_only.
Qed.

Lemma proxy_image_proxy_error_witness :
  fst (proxy_image "https://nxdomain.example/a.png"
         (always (Requests.Failed "Name or service not known")))
    = inr (HTTPException 500 "Proxy error: Name or service not known")
  ∧ ∀ src' w' e, fst (proxy_image src' w') = inr e → ∃ s d, e = HTTPException s d.
Proof.
  apply (proxy_image_proxy_error "https://nxdomain.example/a.png"
           (always (Requests.Failed "Name or service not known"))
           "Name or service not known"); reflexivity.
Defined.

(** C7: for a [src] that passes the scheme check the handler makes the call
    [requests.get(src, headers=..., timeout=10)], where the headers are
    exactly the four fixed entries: the Chrome-on-Windows [User-Agent], the
    image-first [Accept] list, and empty [Referer] and [Origin]. *)
Theorem proxy_image_outbound_call (src : string) (w : World) :
  scheme_ok src = true →
  ∃ c,
    calls (snd (proxy_image src w)) = (calls w ++ [c])%list
    ∧ Requests.url c = src
    ∧ Requests.timeout c = 10
    ∧ Requests.call_headers c !! "User-Agent" =
        Some "Mozilla/5.0 (Windows NT 10.0; Win64; x64) AppleWebKit/537.36 (KHTML, like Gecko) Chrome/120.0 Safari/537.36"
    ∧ Requests.call_headers c !! "Accept" =
        Some "image/avif,image/webp,image/apng,image/*,*/*;q=0.8"
    ∧ Requests.call_headers c !! "Referer" = Some ""
    ∧ Requests.call_headers c !! "Origin" = Some ""
    ∧ size (Requests.call_headers c) = 4%nat.
Proof.
  intros Hok. exists (outbound src). rewrite proxy_image_fetches by done.
  repeat (split; [reflexivity|]). by vm_compute.
Qed.

Lemma proxy_image_outbound_call_witness :
  ∃ c,
    calls (snd (proxy_image "http://example.com/a.png"
                  (always (Requests.Responded png_response)))) = ([] ++ [c])%list
    ∧ Requests.url c = "http://example.com/a.png"
    ∧ Requests.timeout c = 10
    ∧ Requests.call_headers c !! "User-Agent" =
        Some "Mozilla/5.0 (Windows NT 10.0; Win64; x64) AppleWebKit/537.36 (KHTML, like Gecko) Chrome/120.0 Safari/537.36"
    ∧ Requests.call_headers c !! "Accept" =
        Some "image/avif,image/webp,image/apng,image/*,*/*;q=0.8"
    ∧ Requests.call_headers c !! "Referer" = Some ""
    ∧ Requests.call_headers c !! "Origin" = Some ""
    ∧ size (Requests.call_headers c) = 4%nat.
Proof.
  apply (proxy_image_outbound_call "http://example.com/a.png"
           (always (Requests.Responded png_response))); reflexivity.
Defined.

(** C8: an invocation with a valid [src] adds exactly one outbound call to
    the record, whatever its outcome; a second invocation with the same
    [src] adds one more, identical, call; and when the upstream ends that
    call the second time as it did the first, both invocations give the
    same result, so the same body. *)
Theorem proxy_image_fetches_once_per_call (src : string) (w : World) :
  scheme_ok src = true →
  upstream w (S (List.length (calls w))) (outbound src)
    = upstream w (List.length (calls w)) (outbound src) →
  calls (snd (proxy_image src w)) = (calls w ++ [outbound src])%list
  ∧ calls (snd (proxy_image src (snd (proxy_image src w))))
      = (calls w ++ [outbound src; outbound src])%list
  ∧ fst (proxy_image src (snd (proxy_image src w))) = fst (proxy_image src w)
  ∧ ∀ resp1 resp2,
      fst (proxy_image src w) = inl resp1 →
      fst (proxy_image src (snd (proxy_image src w))) = inl resp2 →
      Fastapi.content resp2 = Fastapi.content resp1.
Proof.
  intros Hok Hsame.
  assert (fst (proxy_image src (snd (proxy_image src w))) = fst (proxy_image src w))
    as Heq.
  { rewrite !proxy_image_fetches by done. simpl.
    rewrite length_app, Nat.add_1_r. simpl. by rewrite Hsame. }
  split; [by rewrite proxy_image_fetches|].
  split; [rewrite !proxy_image_fetches by done; simpl; by rewrite <-app_assoc|].
  split; [done|].
  intros resp1 resp2 H1 H2. rewrite Heq, H1 in H2. by injection H2 as ->.
Qed.

Lemma proxy_image_fetches_once_per_call_witness :
  let w := always (Requests.Responded png_response) in
  let src := "https://example.com/avatar.png" in
  calls (snd (proxy_image src w)) = (calls w ++ [outbound src])%list
  ∧ calls (snd (proxy_image src (snd (proxy_image src w))))
      = (calls w ++ [outbound src; outbound src])%list
  ∧ fst (proxy_image src (snd (proxy_image src w))) = fst (proxy_image src w)
  ∧ ∀ resp1 resp2,
      fst (proxy_image src w) = inl resp1 →
      fst (proxy_image src (snd (proxy_image src w))) = inl resp2 →
      Fastapi.content resp2 = Fastapi.content resp1.
Proof.
  intros w src. apply (proxy_image_fetches_once_per_call src w); reflexivity.
Defined.

(** C9: the scheme check is case-sensitive: ["HTTPS://example.com/a.png"],
    whose lower-cased form passes the check, is rejected with
    [HTTPException(400, "Invalid URL")] and no call is made. *)
Theorem proxy_image_scheme_case_sensitive :
  ∃ src,
    src = "HTTPS://example.com/a.png"
    ∧ scheme_ok (Str.lower src) = true
    ∧ ∀ w, proxy_image src w = (inr (HTTPException 400 "Invalid URL"), w)
           ∧ calls (snd (proxy_image src w)) = calls w.
Proof.
  eexists. split; [reflexivity|]. split; [reflexivity|].
  intros w. by rewrite proxy_image_rejects.
Qed.

(** C10: an [HTTPException] raised in the [try] body leaves the handler with
    the same status and detail and the same world; and the body raises it in
    two places only: the scheme check (400) and the upstream status check
    (the upstream's status). *)
Theorem proxy_image_reraises_http_exception (src : string) (w w' : World)
    (s : Z) (d : string) :
  proxy_image_body src w = (inr (HTTPException s d), w') →
  proxy_image src w = (inr (HTTPException s d), w')
  ∧ ((scheme_ok src = false ∧ s = 400 ∧ d = "Invalid URL")
     ∨ (∃ r, scheme_ok src = true
             ∧ upstream w (List.length (calls w)) (outbound src) = Requests.Responded r
             ∧ Requests.status_code r ≠ 200
             ∧ s = Requests.status_code r
             ∧ d = "Upstream failed: " +:+ Str.of_int s)).
Proof.
  intros Hbody. split.
  - unfold proxy_image, try_except. by rewrite Hbody.
  - destruct (scheme_ok src) eqn:Hok.
    + right. rewrite body_fetches in Hbody by done.
      destruct (upstream w _ _) as [r|?|?]; [|done..].
      exists r. destruct (Z.eqb_spec (Requests.status_code r) 200) as [|Hne]; [done|].
      by injection Hbody as <- <- _.
    + left. rewrite body_rejects in Hbody by done. by injection Hbody as <- <- _.
Qed.

Lemma proxy_image_reraises_http_exception_witness :
  proxy_image "https://example.com/gone.png"
    (always (Requests.Responded not_found_response))
  = (inr (HTTPException 404 "Upstream failed: 404"),
     log_call (outbound "https://example.com/gone.png")
       (always (Requests.Responded not_found_response))).
Proof.
  apply (proxy_image_reraises_http_exception "https://example.com/gone.png"
           (always (Requests.Responded not_found_response))
           (log_call (outbound "https://example.com/gone.png")
              (always (Requests.Responded not_found_response)))
           404 "Upstream failed: 404").
  vm_compute. reflexivity.
Defined.

(** ** Further properties of [proxy_image] *)

Lemma scheme_ok_prefix (src : string) :
  scheme_ok src = true ↔ ∃ t, src = "https://" +:+ t ∨ src = "http://" +:+ t.
Proof.
  unfold scheme_ok. rewrite orb_true_iff, !startswith_spec. split.
  - intros [[t ->]|[t ->]]; eauto.
  - intros [t [->| ->]]; eauto.
Qed.

(** X1: the handler makes an outbound call exactly when [src] begins with
    ["https://"] or ["http://"]; what follows the prefix is not looked at. *)
Theorem proxy_image_calls_iff_prefix (src : string) (w : World) :
  calls (snd (proxy_image src w)) ≠ calls w
  ↔ ∃ t, src = "https://" +:+ t ∨ src = "http://" +:+ t.
Proof.
  rewrite <-scheme_ok_prefix. destruct (scheme_ok src) eqn:Hok.
  - rewrite proxy_image_fetches by done. simpl. split; [done|].
    intros _ Heq. apply (f_equal List.length) in Heq.
    rewrite length_app in Heq. simpl in Heq. lia.
  - rewrite proxy_image_rejects by done. simpl. split; [done|]. discriminate.
Qed.



(** X3: an exception that leaves the handler is an [HTTPException] whose
    status is never 200: it is 400, 500, 504 or the status of the upstream
    answer. *)
Theorem proxy_image_error_status (src : string) (w : World) (e : exn) :
  fst (proxy_image src w) = inr e →
  ∃ s d,
    e = HTTPException s d
    ∧ s ≠ 200
    ∧ (s = 400 ∨ s = 500 ∨ s = 504
       ∨ ∃ r, upstream w (List.length (calls w)) (outbound src) = Requests.Responded r
              ∧ s = Requests.status_code r).
Proof.
  destruct (scheme_ok src) eqn:Hok.
  - rewrite proxy_image_fetches by done. simpl.
    destruct (upstream w _ _) as [r|s|s] eqn:Hup.
    + destruct (Z.eqb_spec (Requests.status_code r) 200) as [|Hne]; [done|].
      intros [= <-]. eexists _, _. split; [done|]. split; [done|].
      do 3 right. by exists r.
    + intros [= <-]. eexists _, _. split; [done|]. split; [done|]. auto.
    + intros [= <-]. eexists _, _. split; [done|]. split; [done|]. auto.
  - rewrite proxy_image_rejects by done. simpl.
    intros [= <-]. eexists _, _. split; [done|]. split; [done|]. auto.
Qed.

Lemma proxy_image_error_status_witness :
  ∃ s d,
    HTTPException 404 "Upstream failed: 404" = HTTPException s d
    ∧ s ≠ 200
    ∧ (s = 400 ∨ s = 500 ∨ s = 504
       ∨ ∃ r, Requests.Responded not_found_response = Requests.Responded r
              ∧ s = Requests.status_code r).
Proof.
  apply (proxy_image_error_status "https://example.com/gone.png"
           (always (Requests.Responded not_found_response))).
  reflexivity.
Defined.

(** X4: the handler reads from the upstream answer only its status, its body
    and its [Content-Type] header: two answers that agree on these three
    give the same result, whatever their other headers. *)
Theorem proxy_image_reads_three_fields (src : string) (w1 w2 : World)
    (r1 r2 : Requests.Response) :
  upstream w1 (List.length (calls w1)) (outbound src) = Requests.Responded r1 →
  upstream w2 (List.length (calls w2)) (outbound src) = Requests.Responded r2 →
  Requests.status_code r1 = Requests.status_code r2 →
  Requests.content r1 = Requests.content r2 →
  Requests.cid_getitem (Requests.headers r1) "Content-Type"
    = Requests.cid_getitem (Requests.headers r2) "Content-Type" →
  fst (proxy_image src w1) = fst (proxy_image src w2).
Proof.
  intros H1 H2 Hs Hc Ht. destruct (scheme_ok src) eqn:Hok.
  - rewrite !proxy_image_fetches, H1, H2 by done. simpl.
    unfold Requests.cid_get. by rewrite Hs, Hc, Ht.
  - by rewrite !proxy_image_rejects.
Qed.

Lemma proxy_image_reads_three_fields_witness :
  fst (proxy_image "https://example.com/avatar.png"
         (always (Requests.Responded png_response)))
  = fst (proxy_image "https://example.com/avatar.png"
           (always (Requests.Responded
              (Requests.mkResponse 200
                 (Requests.cid_setitem (Requests.headers png_response)
                    "Set-Cookie" "sid=1")
                 png_bytes)))).
Proof.
  apply (proxy_image_reads_three_fields "https://example.com/avatar.png"
           (always (Requests.Responded png_response))
           (always (Requests.Responded
              (Requests.mkResponse 200
                 (Requests.cid_setitem (Requests.headers png_response)
                    "Set-Cookie" "sid=1")
                 png_bytes)))
           png_response
           (Requests.mkResponse 200
              (Requests.cid_setitem (Requests.headers png_response)
                 "Set-Cookie" "sid=1")
              png_bytes)); reflexivity.
Defined.

(** ** The contact handlers *)

(** The document [create_contact_message] hands to the store. *)
Lemma create_contact_message_run (payload : ContactIn) (w : Backend) :
  create_contact_message payload w =
    match db w with
    | None => (inr (HTTPException 500 "Database not configured"), w)
    | Some _ =>
        let data :=
          <["received_at" := Doc.VDatetime (utc_now w)]> (model_dump payload) in
        (match on_create w (List.length (store_ops w)) "contactmessage" data with
         | inl id => inl (<["id" := Doc.VStr id]> (<["success" := Doc.VBool true]> ∅))
         | inr (HTTPException c d) => inr (HTTPException c d)
         | inr (Timeout s) => inr (HTTPException 500 s)
         | inr (Exception s) => inr (HTTPException 500 s)
         end,
         log_op (CreateDocument "contactmessage" data) w)
    end.
Proof.
  unfold create_contact_message, se_try_except, mbind, SE_bind, get_db,
    datetime_now, create_document.
  destruct (db w) as [d|]; simpl; [|done].
  destruct (on_create w _ _ _) as [id|[c d'|s|s]]; done.
Qed.

Lemma list_contact_messages_run (limit : Z) (w : Backend) :
  list_contact_messages limit w =
    match db w with
    | None => (inr (HTTPException 500 "Database not configured"), w)
    | Some _ =>
        (match on_get w (List.length (store_ops w)) "contactmessage" ∅ limit with
         | inl docs => inl (mkItems (serialize <$> docs))
         | inr (HTTPException c d) => inr (HTTPException c d)
         | inr (Timeout s) => inr (HTTPException 500 s)
         | inr (Exception s) => inr (HTTPException 500 s)
         end,
         log_op (GetDocuments "contactmessage" ∅ limit) w)
    end.
Proof.
  unfold list_contact_messages, se_try_except, mbind, SE_bind, get_db,
    get_documents.
  destruct (db w) as [d|]; simpl; [|done].
  destruct (on_get w _ _ _ _) as [docs|[c d'|s|s]]; done.
Qed.

(** X5: with no database configured ([db is None]) both contact handlers
    raise [HTTPException(500, "Database not configured")] and make no call
    into the store. *)
Theorem contact_handlers_without_db (payload : ContactIn) (limit : Z)
    (w : Backend) :
  db w = None →
  create_contact_message payload w
    = (inr (HTTPException 500 "Database not configured"), w)
  ∧ list_contact_messages limit w
    = (inr (HTTPException 500 "Database not configured"), w).
Proof.
  intros Hdb. by rewrite create_contact_message_run, list_contact_messages_run, Hdb.
Qed.

Lemma contact_handlers_without_db_witness :
  create_contact_message sample_contact (quiet_backend None)
    = (inr (HTTPException 500 "Database not configured"), quiet_backend None)
  ∧ list_contact_messages 10 (quiet_backend None)
    = (inr (HTTPException 500 "Database not configured"), quiet_backend None).
Proof.
  apply (contact_handlers_without_db sample_contact 10 (quiet_backend None)).
  reflexivity.
Defined.

(** X6: with a database and a store that accepts the document,
    [create_contact_message] returns [{"success": True, "id": id}] after
    exactly one [create_document] on ["contactmessage"]; the document has
    the six fields of the payload (an absent [subject] or [phone] as
    [None]) and [received_at], the clock's reading, and no other key. *)
Theorem create_contact_message_stores (payload : ContactIn) (w : Backend)
    (d : Database) (data : gmap string Doc.value) (id : string) :
  db w = Some d →
  data = <["received_at" := Doc.VDatetime (utc_now w)]> (model_dump payload) →
  on_create w (List.length (store_ops w)) "contactmessage" data = inl id →
  ∃ answer w',
    create_contact_message payload w = (inl answer, w')
    ∧ answer !! "success" = Some (Doc.VBool true)
    ∧ answer !! "id" = Some (Doc.VStr id)
    ∧ size answer = 2%nat
    ∧ store_ops w' = (store_ops w ++ [CreateDocument "contactmessage" data])%list
    ∧ data !! "name" = Some (Doc.VStr (name payload))
    ∧ data !! "email" = Some (Doc.VStr (email payload))
    ∧ data !! "subject" = Some (opt_value (subject payload))
    ∧ data !! "phone" = Some (opt_value (phone payload))
    ∧ data !! "message" = Some (Doc.VStr (message payload))
    ∧ data !! "source" = Some (Doc.VStr (source payload))
    ∧ data !! "received_at" = Some (Doc.VDatetime (utc_now w))
    ∧ dom data = ({["name"; "email"; "subject"; "phone"; "message"; "source";
                     "received_at"]} : gset string).
Proof.
  intros Hdb -> Hid. eexists _, _.
  rewrite create_contact_message_run, Hdb. simpl. rewrite Hid.
  split; [reflexivity|].
  repeat (split; [by (reflexivity || (unfold model_dump; simplify_map_eq))|]).
  unfold model_dump. rewrite !dom_insert_L, dom_empty_L. set_solver.
Qed.

Lemma create_contact_message_stores_witness :
  let payload := sample_contact in
  let w := quiet_backend (Some sample_db) in
  let data := <["received_at" := Doc.VDatetime (utc_now w)]> (model_dump payload) in
  let id := "65f0c0ffee0123456789abcd" in
  ∃ answer w',
    create_contact_message payload w = (inl answer, w')
    ∧ answer !! "success" = Some (Doc.VBool true)
    ∧ answer !! "id" = Some (Doc.VStr id)
    ∧ size answer = 2%nat
    ∧ store_ops w' = (store_ops w ++ [CreateDocument "contactmessage" data])%list
    ∧ data !! "name" = Some (Doc.VStr (name payload))
    ∧ data !! "email" = Some (Doc.VStr (email payload))
    ∧ data !! "subject" = Some (opt_value (subject payload))
    ∧ data !! "phone" = Some (opt_value (phone payload))
    ∧ data !! "message" = Some (Doc.VStr (message payload))
    ∧ data !! "source" = Some (Doc.VStr (source payload))
    ∧ data !! "received_at" = Some (Doc.VDatetime (utc_now w))
    ∧ dom data = ({["name"; "email"; "subject"; "phone"; "message"; "source";
                     "received_at"]} : gset string).
Proof.
  intros payload w data id.
  apply (create_contact_message_stores payload w sample_db data id); reflexivity.
Defined.

(** X7: when [create_document] raises, the handler has made that one call
    and no other (no retry); an exception that is not an [HTTPException]
    becomes [HTTPException(500, str(e))], the detail being [str(e)] with
    nothing added, and an [HTTPException] passes unchanged. *)
Theorem create_contact_message_store_failure (payload : ContactIn) (w : Backend)
    (d : Database) (e : exn) :
  db w = Some d →
  on_create w (List.length (store_ops w)) "contactmessage"
    (<["received_at" := Doc.VDatetime (utc_now w)]> (model_dump payload)) = inr e →
  fst (create_contact_message payload w)
    = inr (match e with
           | HTTPException c dt => HTTPException c dt
           | Timeout s => HTTPException 500 s
           | Exception s => HTTPException 500 s
           end)
  ∧ List.length (store_ops (snd (create_contact_message payload w)))
    = S (List.length (store_ops w)).
Proof.
  intros Hdb He. rewrite create_contact_message_run, Hdb. simpl. rewrite He.
  split; [by destruct e|]. rewrite length_app. simpl. lia.
Qed.

Lemma create_contact_message_store_failure_witness :
  let w := mkBackend (Some sample_db) (λ _ _ _, inr (Exception "connection refused"))
             (λ _ _ _ _, inl []) (utc_now (quiet_backend None)) (λ _, None) [] in
  fst (create_contact_message sample_contact w)
    = inr (HTTPException 500 "connection refused")
  ∧ List.length (store_ops (snd (create_contact_message sample_contact w))) = 1%nat.
Proof.
  intros w.
  apply (create_contact_message_store_failure sample_contact w sample_db
           (Exception "connection refused")); reflexivity.
Defined.

(** X8: an exception that leaves either contact handler is an
    [HTTPException]. *)
Theorem contact_handlers_raise_http_only (payload : ContactIn) (limit : Z)
    (w : Backend) (e : exn) :
  fst (create_contact_message payload w) = inr e
  ∨ fst (list_contact_messages limit w) = inr e →
  ∃ s d, e = HTTPException s d.
Proof.
  rewrite create_contact_message_run, list_contact_messages_run.
  destruct (db w) as [d|]; simpl.
  - destruct (on_create w _ _ _) as [?|[]], (on_get w _ _ _ _) as [?|[]];
      intros [[= <-]|[= <-]]; eauto.
  - intros [[= <-]|[= <-]]; eauto.
Qed.

Lemma contact_handlers_raise_http_only_witness :
  ∃ s d, HTTPException 500 "Database not configured" = HTTPException s d.
Proof.
  apply (contact_handlers_raise_http_only sample_contact 10 (quiet_backend None)).
  left. reflexivity.
Defined.

(** X9: with a database and a store that returns [docs],
    [list_contact_messages] makes the one call
    [get_documents("contactmessage", {}, limit)], with [limit] as it was
    given (zero and negative values included), and answers with one item
    per document, in the same order, each the serialized document. *)
Theorem list_contact_messages_items (limit : Z) (w : Backend) (d : Database)
    (docs : list (gmap string Doc.value)) :
  db w = Some d →
  on_get w (List.length (store_ops w)) "contactmessage" ∅ limit = inl docs →
  ∃ answer w',
    list_contact_messages limit w = (inl answer, w')
    ∧ store_ops w' = (store_ops w ++ [GetDocuments "contactmessage" ∅ limit])%list
    ∧ List.length (items answer) = List.length docs
    ∧ ∀ i, items answer !! i = serialize <$> docs !! i.
Proof.
  intros Hdb Hdocs. eexists _, _.
  rewrite list_contact_messages_run, Hdb. simpl. rewrite Hdocs.
  split; [reflexivity|]. split; [reflexivity|]. simpl. split.
  - apply length_fmap.
  - intros i. apply list_lookup_fmap.
Qed.

Lemma list_contact_messages_items_witness :
  let doc : gmap string Doc.value := <["_id" := Doc.VObjectId "65f0"]> (model_dump sample_contact) in
  let w := mkBackend (Some sample_db) (λ _ _ _, inl "65f0") (λ _ _ _ _, inl [doc])
             (utc_now (quiet_backend None)) (λ _, None) [] in
  ∃ answer w',
    list_contact_messages (-1) w = (inl answer, w')
    ∧ store_ops w' = ([] ++ [GetDocuments "contactmessage" ∅ (-1)])%list
    ∧ List.length (items answer) = 1%nat
    ∧ ∀ i, items answer !! i = serialize <$> [doc] !! i.
Proof.
  intros doc w.
  apply (list_contact_messages_items (-1) w sample_db [doc]); reflexivity.
Defined.

(** ** [serialize] *)

(** What the loop of lines 70-72 does to one value. *)
Lemma isoformat_step_fixed (v : Doc.value) :
  Doc.has_isoformat
    (match Doc.isoformat v with
     | Some iso => Doc.VStr iso
     | None => v
     end) = false.
Proof. by destruct v. Qed.

Lemma serialize_lookup (doc : gmap string Doc.value) (k : string) :
  serialize doc !! k =
    (λ v, match Doc.isoformat v with
          | Some iso => Doc.VStr iso
          | None => v
          end)
    <$> (if decide (k = "_id")
         then (λ v, Doc.VStr (Doc.str v)) <$> doc !! "_id"
         else doc !! k).
Proof.
  unfold serialize. rewrite lookup_fmap. f_equal.
  destruct (doc !! "_id") as [v|] eqn:Hid.
  - case_decide as Hk; [subst k; by rewrite lookup_insert_eq|].
    by rewrite lookup_insert_ne.
  - case_decide as Hk; [by subst k|done].
Qed.

Lemma serialize_lookup_plain (doc : gmap string Doc.value) (k : string)
    (v : Doc.value) :
  serialize doc !! k = Some v → Doc.has_isoformat v = false.
Proof.
  rewrite serialize_lookup. intros (v' & _ & ->)%fmap_Some.
  apply isoformat_step_fixed.
Qed.

Lemma serialize_lookup_id (doc : gmap string Doc.value) :
  serialize doc !! "_id" = (λ v, Doc.VStr (Doc.str v)) <$> doc !! "_id".
Proof.
  rewrite serialize_lookup, decide_True by done.
  by destruct (doc !! "_id").
Qed.

Lemma serialize_lookup_other (doc : gmap string Doc.value) (k : string)
    (v : Doc.value) :
  k ≠ "_id" →
  doc !! k = Some v →
  serialize doc !! k
    = Some (match v with
            | Doc.VDatetime t => Doc.VStr (Doc.dt_isoformat t)
            | _ => v
            end).
Proof.
  intros Hk Hv. rewrite serialize_lookup, decide_False, Hv by done.
  by destruct v.
Qed.

(** X10: [serialize] keeps the key set of the document: it adds no key (no
    ["_id"] where there was none) and removes none. *)
Theorem serialize_dom (doc : gmap string Doc.value) :
  dom (serialize doc) = dom doc.
Proof.
  apply set_eq. intros k. rewrite !elem_of_dom, serialize_lookup.
  rewrite <-!not_eq_None_Some, fmap_None.
  case_decide as Hk; [subst k; by rewrite fmap_None|done].
Qed.

(** X11: no value of a serialized document has an [isoformat] attribute:
    every [datetime] of the document has been replaced by a string. *)
Theorem serialize_no_isoformat (doc : gmap string Doc.value) (k : string)
    (v : Doc.value) :
  serialize doc !! k = Some v → Doc.has_isoformat v = false.
Proof.
  rewrite serialize_lookup. intros (v' & _ & ->)%fmap_Some.
  by destruct v'.
Qed.

Lemma serialize_no_isoformat_witness :
  Doc.has_isoformat (Doc.VStr "2024-03-01T12:00:00+00:00") = false.
Proof.
  apply (serialize_no_isoformat
           (<["received_at" := Doc.VDatetime (utc_now (quiet_backend None))]>
              (model_dump sample_contact))
           "received_at").
  reflexivity.
Defined.

(** X12: serializing twice is serializing once. *)
Theorem serialize_idempotent (doc : gmap string Doc.value) :
  serialize (serialize doc) = serialize doc.
Proof.
  apply map_eq. intros k. rewrite (serialize_lookup (serialize doc)).
  case_decide as Hk.
  - subst k. rewrite serialize_lookup. rewrite decide_True by done.
    destruct (doc !! "_id") as [v|]; simpl; [|done]. done.
  - destruct (serialize doc !! k) as [v|] eqn:Hv; simpl; [|done].
    apply serialize_lookup_plain in Hv. by destruct v.
Qed.

(** X13: the ["_id"] of a document is replaced by its [str()], whatever its
    type (a [datetime] there is rendered by [str], not by [isoformat]), and a
    document without ["_id"] gets none. *)
Theorem serialize_id (doc : gmap string Doc.value) :
  serialize doc !! "_id" = (λ v, Doc.VStr (Doc.str v)) <$> doc !! "_id".
Proof.
  rewrite serialize_lookup. case_decide as Hk; [|done].
  destruct (doc !! "_id") as [v|]; simpl; [|done].
  reflexivity.
Qed.

(** X14: under a key other than ["_id"], a [datetime] is replaced by its
    [isoformat()] string and any other value is left as it is. *)
Theorem serialize_other_keys (doc : gmap string Doc.value) (k : string)
    (v : Doc.value) :
  k ≠ "_id" →
  doc !! k = Some v →
  serialize doc !! k
    = Some (match v with
            | Doc.VDatetime t => Doc.VStr (Doc.dt_isoformat t)
            | _ => v
            end).
Proof.
  intros Hk Hv. rewrite serialize_lookup. case_decide as Hk'; [done|].
  rewrite Hv. simpl. by destruct v.
Qed.

Lemma serialize_other_keys_witness :
  serialize (<["received_at" := Doc.VDatetime (utc_now (quiet_backend None))]>
               (model_dump sample_contact)) !! "received_at"
  = Some (Doc.VStr "2024-03-01T12:00:00+00:00").
Proof.
  apply (serialize_other_keys
           (<["received_at" := Doc.VDatetime (utc_now (quiet_backend None))]>
              (model_dump sample_contact))
           "received_at" (Doc.VDatetime (utc_now (quiet_backend None))));
    [discriminate | reflexivity].
Defined.

(** X15: a contact written by [create_contact_message] and handed back by
    the store with an ["_id"] is listed with its fields unchanged, its
    [received_at] as the ISO string of the clock's reading and its ["_id"]
    as a string. *)
Theorem contact_round_trip (payload : ContactIn) (w : Backend) (d : Database)
    (id oid : string) (data : gmap string Doc.value) :
  db w = Some d →
  create_contact_message payload w
    = (inl (<["id" := Doc.VStr id]> (<["success" := Doc.VBool true]> ∅)),
       log_op (CreateDocument "contactmessage" data) w) →
  let listed := serialize (<["_id" := Doc.VObjectId oid]> data) in
  listed !! "_id" = Some (Doc.VStr oid)
  ∧ listed !! "received_at" = Some (Doc.VStr (Doc.dt_isoformat (utc_now w)))
  ∧ listed !! "name" = Some (Doc.VStr (name payload))
  ∧ listed !! "email" = Some (Doc.VStr (email payload))
  ∧ listed !! "subject" = Some (opt_value (subject payload))
  ∧ listed !! "phone" = Some (opt_value (phone payload))
  ∧ listed !! "message" = Some (Doc.VStr (message payload))
  ∧ listed !! "source" = Some (Doc.VStr (source payload)).
Proof.
  intros Hdb Hrun listed. rewrite create_contact_message_run, Hdb in Hrun.
  simpl in Hrun. destruct (on_create w _ _ _) as [id'|[]]; try done.
  injection Hrun as _ Hlog. apply app_inv_head in Hlog. injection Hlog as <-.
  subst listed. split; [by rewrite serialize_lookup_id, lookup_insert_eq|].
  unfold model_dump.
  repeat split;
    (erewrite serialize_lookup_other; [| done | by simplify_map_eq]);
    try done; by destruct (subject payload), (phone payload).
Qed.

Lemma contact_round_trip_witness :
  let payload := sample_contact in
  let w := quiet_backend (Some sample_db) in
  let data := <["received_at" := Doc.VDatetime (utc_now w)]> (model_dump payload) in
  let listed := serialize (<["_id" := Doc.VObjectId "65f0c0ffee0123456789abcd"]> data) in
  listed !! "_id" = Some (Doc.VStr "65f0c0ffee0123456789abcd")
  ∧ listed !! "received_at" = Some (Doc.VStr "2024-03-01T12:00:00+00:00")
  ∧ listed !! "name" = Some (Doc.VStr "Ada")
  ∧ listed !! "email" = Some (Doc.VStr "ada@example.com")
  ∧ listed !! "subject" = Some Doc.VNone
  ∧ listed !! "phone" = Some (Doc.VStr "555-0100")
  ∧ listed !! "message" = Some (Doc.VStr "Hello there")
  ∧ listed !! "source" = Some (Doc.VStr "portfolio").
Proof.
  intros payload w data listed.
  apply (contact_round_trip payload w sample_db "65f0c0ffee0123456789abcd"
           "65f0c0ffee0123456789abcd" data); reflexivity.
Defined.

(** ** The diagnostics handler *)



Lemma env_truthy_spec (v : option string) :
  env_truthy v = true ↔ ∃ s, v = Some s ∧ s ≠ "".
Proof.
  destruct v as [[|c s]|]; simpl; split; try done.
  - intros (s & [= <-] & Hs). done.
  - intros _. by eexists.
  - intros (s & [=] & _).
Qed.

#[local] Arguments str_prefix : simpl never.

Ltac run_test_database w :=
  unfold test_database, test_database_frame, se_try_except, mbind, SE_bind,
    frame_db, frame_getenv, call_list_collection_names, assign;
  simpl;
  destruct (db w) as [[nm [names|err]]|]; simpl.

(** X16: [test_database] always returns, also when listing the collections
    raises; it leaves the backend as it was, and its answer has the same six
    keys every time, with [backend] reported as running. *)
Theorem test_database_returns (w : Backend) :
  ∃ r,
    test_database w = (inl r, w)
    ∧ r !! "backend" = Some (DStr "✅ Running")
    ∧ dom r = ({["backend"; "database"; "database_url"; "database_name";
                  "connection_status"; "collections"]} : gset string).
Proof.
  run_test_database w; eexists; (split; [reflexivity|]); (split; [reflexivity|]);
    unfold initial_response; rewrite !dom_insert_L, dom_empty_L; set_solver.
Qed.

(** X17: the [database_url] and [database_name] of the answer come from the
    environment alone: each is ["✅ Set"] when its variable ([DATABASE_URL],
    [DATABASE_NAME]) is set to a non-empty string and ["❌ Not Set"]
    otherwise; the name of the [db] handle is never reported. *)
Theorem test_database_env_fields (w : Backend) (r : gmap string diag) :
  fst (test_database w) = inl r →
  r !! "database_url"
    = Some (DStr (if env_truthy (getenv w "DATABASE_URL")
                  then "✅ Set" else "❌ Not Set"))
  ∧ r !! "database_name"
    = Some (DStr (if env_truthy (getenv w "DATABASE_NAME")
                  then "✅ Set" else "❌ Not Set"))
  ∧ (env_truthy (getenv w "DATABASE_URL") = true
     ↔ ∃ s, getenv w "DATABASE_URL" = Some s ∧ s ≠ "")
  ∧ (env_truthy (getenv w "DATABASE_NAME") = true
     ↔ ∃ s, getenv w "DATABASE_NAME" = Some s ∧ s ≠ "").
Proof.
  intros Hr. split; [|split; [|split; apply env_truthy_spec]].
  - revert Hr. run_test_database w; intros [= <-]; reflexivity.
  - revert Hr. run_test_database w; intros [= <-]; reflexivity.
Qed.

Lemma test_database_env_fields_witness :
  ∃ r,
    fst (test_database (diag_backend (Some sample_db))) = inl r
    ∧ r !! "database_url" = Some (DStr "✅ Set")
    ∧ r !! "database_name" = Some (DStr "❌ Not Set").
Proof.
  eexists. split; [reflexivity|].
  split;
    apply (test_database_env_fields (diag_backend (Some sample_db))); reflexivity.
Defined.

(** X18: [collections] holds at most ten names: the first ten that
    [list_collection_names()] returns, in order, and the empty list when
    there is no database or the listing raises. *)
Theorem test_database_collections (w : Backend) (r : gmap string diag) :
  fst (test_database w) = inl r →
  ∃ l,
    r !! "collections" = Some (DList l)
    ∧ (List.length l ≤ 10)%nat
    ∧ l = match db w with
          | Some d =>
              match list_collection_names d with
              | inl names => take 10 names
              | inr _ => []
              end
          | None => []
          end.
Proof.
  run_test_database w; intros [= <-]; eexists;
    (split; [reflexivity|]); (split; [|reflexivity]); simpl; try lia.
  rewrite length_take. lia.
Qed.

Lemma test_database_collections_witness :
  ∃ r,
    fst (test_database (diag_backend (Some crowded_db))) = inl r
    ∧ ∃ l,
        r !! "collections" = Some (DList l)
        ∧ (List.length l ≤ 10)%nat
        ∧ l = ["c01"; "c02"; "c03"; "c04"; "c05"; "c06"; "c07"; "c08"; "c09"; "c10"].
Proof.
  eexists. split; [reflexivity|].
  apply (test_database_collections (diag_backend (Some crowded_db))). reflexivity.
Defined.

(** X19: [connection_status] is ["Connected"] exactly when there is a [db]
    handle, whether or not the listing works, and ["Not Connected"]
    otherwise; [database] reads "not initialized" without a handle and
    "Connected & Working" when the listing returns. *)
Theorem test_database_status (w : Backend) (r : gmap string diag) :
  fst (test_database w) = inl r →
  match db w with
  | None =>
      r !! "connection_status" = Some (DStr "Not Connected")
      ∧ r !! "database" = Some (DStr "⚠️  Available but not initialized")
  | Some d =>
      r !! "connection_status" = Some (DStr "Connected")
      ∧ ∀ names, list_collection_names d = inl names →
                 r !! "database" = Some (DStr "✅ Connected & Working")
  end.
Proof.
  run_test_database w; intros [= <-]; (split; [reflexivity|]); try reflexivity.
  intros names' [=].
Qed.

Lemma test_database_status_witness :
  ∃ r,
    fst (test_database (diag_backend (Some failing_db))) = inl r
    ∧ r !! "connection_status" = Some (DStr "Connected").
Proof.
  eexists. split; [reflexivity|].
  apply (test_database_status (diag_backend (Some failing_db))). reflexivity.
Defined.


